(** * The scalar compute facade of Arrow: [arrow/compute/api_scalar.cc]

    A shallow embedding of the eager scalar entry points (arithmetic,
    element-wise aggregates, set lookup, boolean, comparison, validity and
    temporal functions) together with the properties of their name
    resolution, their local validation and their delegation to the
    function registry. *)

From Stdlib Require Import String Ascii List ZArith Bool Lia.
Import ListNotations.
Open Scope string_scope.

Set Implicit Arguments.

(** ** Strings: the substring test used to talk about error messages *)

Fixpoint contains (needle hay : string) : bool :=
  prefix needle hay
  || match hay with
     | EmptyString => false
     | String _ rest => contains needle rest
     end.

(** ** [arrow/status.h]: status codes, [Status] and [Result<T>] *)

Module StatusCode.
Inductive t : Set :=
| OK | OutOfMemory | KeyError | TypeError | Invalid | IOError
| CapacityError | IndexError | Cancelled | UnknownError | NotImplemented
| SerializationError | ExecutionError.
End StatusCode.

Module Status.
Record t : Set := Make { code : StatusCode.t; message : string }.

(** [Status::Invalid(msg)]: the failure the specification calls
    InvalidArgument. *)
Definition Invalid (msg : string) : t :=
  {| code := StatusCode.Invalid; message := msg |}.
End Status.

(** [Result<T>] holds either a value or a non-OK status. *)
Inductive Result (T : Type) : Type :=
| Ok (value : T)
| Error (status : Status.t).
Arguments Ok {T} value.
Arguments Error {T} status.

(** ** [arrow/type_fwd.h]: the type identifiers, [Type::type] *)

Module TypeId.
Inductive t : Set :=
| NA | BOOL | UINT8 | INT8 | UINT16 | INT16 | UINT32 | INT32 | UINT64
| INT64 | HALF_FLOAT | FLOAT | DOUBLE | STRING | BINARY
| FIXED_SIZE_BINARY | DATE32 | DATE64 | TIMESTAMP | TIME32 | TIME64
| INTERVAL_MONTHS | INTERVAL_DAY_TIME | DECIMAL128 | DECIMAL256 | LIST
| STRUCT | SPARSE_UNION | DENSE_UNION | DICTIONARY | MAP | EXTENSION
| FIXED_SIZE_LIST | DURATION | LARGE_STRING | LARGE_BINARY | LARGE_LIST.

Definition eq_dec (a b : t) : {a = b} + {a <> b}.
Proof. decide equality. Defined.

(** The comparison [a == b] of two identifiers. *)
Definition eqb (a b : t) : bool := if eq_dec a b then true else false.
End TypeId.

(** ** The external collaborators

    The facade only borrows its arguments; what it reads from them is the
    interface below.  The declarations themselves ([arrow/type.h],
    [arrow/datum.h], [arrow/compute/exec.h]) are outside the translated
    file, so they are taken as parameters of the development.

    - [DataType_id] is [DataType::id()];
    - [DictionaryType_value_type] is [DictionaryType::value_type()], read
      by the facade only when the identifier is [DICTIONARY];
    - [DataType_Equals] and [DataType_ToString] are [DataType::Equals] and
      [DataType::ToString];
    - [Datum_type], [Datum_is_arraylike] and [Datum_length] are
      [Datum::type()], [Datum::is_arraylike()] and [Datum::length()], the
      latter a signed 64-bit count. *)

Class Collaborators : Type := {
  DataType : Type;
  Datum : Type;
  ExecContext : Type;
  DataType_id : DataType -> TypeId.t;
  DictionaryType_value_type : DataType -> DataType;
  DataType_Equals : DataType -> DataType -> bool;
  DataType_ToString : DataType -> string;
  Datum_type : Datum -> DataType;
  Datum_is_arraylike : Datum -> bool;
  Datum_length : Datum -> Z
}.

Section Facade.

Context {env : Collaborators}.

(** ** [arrow/compute/api_scalar.h]: the options records *)

Record ArithmeticOptions : Type := { check_overflow : bool }.

Record ElementWiseAggregateOptions : Type := { skip_nulls : bool }.

Record SetLookupOptions : Type := {
  value_set : Datum;
  set_skip_nulls : bool
}.

(** The constructor [SetLookupOptions(Datum value_set, bool skip_nulls = false)]
    used with the single argument [value_set], as [SetLookupOptions{value_set}]
    does. *)
Definition SetLookupOptions_of (vs : Datum) : SetLookupOptions :=
  {| value_set := vs; set_skip_nulls := false |}.

Inductive CompareOperator : Set :=
| EQUAL | NOT_EQUAL | GREATER | GREATER_EQUAL | LESS | LESS_EQUAL.

Record CompareOptions : Type := { op : CompareOperator }.

(** [FunctionOptions] is the common base of the options records; the
    registry receives a possibly null pointer to it. *)
Inductive FunctionOptions : Type :=
| OfArithmetic (o : ArithmeticOptions)
| OfElementWiseAggregate (o : ElementWiseAggregateOptions)
| OfSetLookup (o : SetLookupOptions)
| OfCompare (o : CompareOptions).

(** ** Delegation to the function registry

    A facade function either answers by itself or issues one request to
    the registry and continues with the registry's answer.  [Invoke]
    records the request; the continuation says what is done with the
    answer. *)

Record RegistryCall : Type := {
  call_name : string;
  call_args : list Datum;
  call_options : option FunctionOptions;
  call_ctx : ExecContext
}.

Inductive Dispatch (A : Type) : Type :=
| Return (a : A)
| Invoke (c : RegistryCall) (k : Result Datum -> Dispatch A).
Arguments Return {A} a.
Arguments Invoke {A} c k.

(** [CallFunction(name, args, options, ctx)]; the overload without options
    passes a null options pointer, written [None] here. *)
Definition CallFunction (func_name : string) (args : list Datum)
    (options : option FunctionOptions) (ctx : ExecContext)
  : Dispatch (Result Datum) :=
  Invoke {| call_name := func_name; call_args := args;
            call_options := options; call_ctx := ctx |} Return.

(** The registry is a black box that answers requests. *)
Definition Registry : Type := RegistryCall -> Result Datum.

(** Running a facade function against a registry gives its result and the
    requests it made, in order. *)
Fixpoint run {A : Type} (reg : Registry) (p : Dispatch A)
  : A * list RegistryCall :=
  match p with
  | Return a => (a, [])
  | Invoke c k => let '(a, calls) := run reg (k (reg c)) in (a, c :: calls)
  end.

(** The registry name a facade call resolves to, if it delegates. *)
Definition registry_name {A : Type} (p : Dispatch A) : option string :=
  match p with
  | Return _ => None
  | Invoke c _ => Some (call_name c)
  end.

(** ** The entry points, in the order of the source *)

Definition SCALAR_EAGER_UNARY (REGISTRY_NAME : string)
    (value : Datum) (ctx : ExecContext) : Dispatch (Result Datum) :=
  CallFunction REGISTRY_NAME [value] None ctx.

Definition SCALAR_EAGER_BINARY (REGISTRY_NAME : string)
    (left right : Datum) (ctx : ExecContext) : Dispatch (Result Datum) :=
  CallFunction REGISTRY_NAME [left; right] None ctx.

(** *** Arithmetic *)

Definition SCALAR_ARITHMETIC_UNARY (REGISTRY_NAME REGISTRY_CHECKED_NAME : string)
    (arg : Datum) (options : ArithmeticOptions) (ctx : ExecContext)
  : Dispatch (Result Datum) :=
  let func_name :=
    if check_overflow options then REGISTRY_CHECKED_NAME else REGISTRY_NAME in
  CallFunction func_name [arg] None ctx.

Definition AbsoluteValue := SCALAR_ARITHMETIC_UNARY "abs" "abs_checked".
Definition Negate := SCALAR_ARITHMETIC_UNARY "negate" "negate_checked".

Definition SCALAR_ARITHMETIC_BINARY (REGISTRY_NAME REGISTRY_CHECKED_NAME : string)
    (left right : Datum) (options : ArithmeticOptions) (ctx : ExecContext)
  : Dispatch (Result Datum) :=
  let func_name :=
    if check_overflow options then REGISTRY_CHECKED_NAME else REGISTRY_NAME in
  CallFunction func_name [left; right] None ctx.

Definition Add := SCALAR_ARITHMETIC_BINARY "add" "add_checked".
Definition Subtract := SCALAR_ARITHMETIC_BINARY "subtract" "subtract_checked".
Definition Multiply := SCALAR_ARITHMETIC_BINARY "multiply" "multiply_checked".
Definition Divide := SCALAR_ARITHMETIC_BINARY "divide" "divide_checked".
Definition Power := SCALAR_ARITHMETIC_BINARY "power" "power_checked".

Definition ElementWiseMax (args : list Datum)
    (options : ElementWiseAggregateOptions) (ctx : ExecContext)
  : Dispatch (Result Datum) :=
  CallFunction "element_wise_max" args (Some (OfElementWiseAggregate options)) ctx.

Definition ElementWiseMin (args : list Datum)
    (options : ElementWiseAggregateOptions) (ctx : ExecContext)
  : Dispatch (Result Datum) :=
  CallFunction "element_wise_min" args (Some (OfElementWiseAggregate options)) ctx.

(** *** Set-related operations *)

Definition ExecSetLookup (func_name : string) (data : Datum)
    (options : SetLookupOptions) (ctx : ExecContext)
  : Dispatch (Result Datum) :=
  if negb (Datum_is_arraylike (value_set options)) then
    Return (Error (Status.Invalid
                     "Set lookup value set must be Array or ChunkedArray"))
  else
    let data_type :=
      if TypeId.eqb (DataType_id (Datum_type data)) TypeId.DICTIONARY
      then DictionaryType_value_type (Datum_type data)
      else Datum_type data in
    if (Datum_length (value_set options) >? 0)%Z
       && negb (DataType_Equals data_type (Datum_type (value_set options)))
    then
      Return (Error (Status.Invalid
                       ("Array type didn't match type of values set: "
                        ++ DataType_ToString data_type
                        ++ " vs "
                        ++ DataType_ToString (Datum_type (value_set options)))))
    else
      CallFunction func_name [data] (Some (OfSetLookup options)) ctx.

Definition IsIn (values : Datum) (options : SetLookupOptions)
    (ctx : ExecContext) : Dispatch (Result Datum) :=
  ExecSetLookup "is_in" values options ctx.

(** The overload [IsIn(values, value_set, ctx)]. *)
Definition IsIn_value_set (values value_set : Datum) (ctx : ExecContext)
  : Dispatch (Result Datum) :=
  ExecSetLookup "is_in" values (SetLookupOptions_of value_set) ctx.

Definition IndexIn (values : Datum) (options : SetLookupOptions)
    (ctx : ExecContext) : Dispatch (Result Datum) :=
  ExecSetLookup "index_in" values options ctx.

(** The overload [IndexIn(values, value_set, ctx)]. *)
Definition IndexIn_value_set (values value_set : Datum) (ctx : ExecContext)
  : Dispatch (Result Datum) :=
  ExecSetLookup "index_in" values (SetLookupOptions_of value_set) ctx.

(** *** Boolean functions *)

Definition Invert := SCALAR_EAGER_UNARY "invert".
Definition And := SCALAR_EAGER_BINARY "and".
Definition KleeneAnd := SCALAR_EAGER_BINARY "and_kleene".
Definition Or := SCALAR_EAGER_BINARY "or".
Definition KleeneOr := SCALAR_EAGER_BINARY "or_kleene".
Definition Xor := SCALAR_EAGER_BINARY "xor".
Definition AndNot := SCALAR_EAGER_BINARY "and_not".
Definition KleeneAndNot := SCALAR_EAGER_BINARY "and_not_kleene".

(** *** Comparison *)

Definition Compare (left right : Datum) (options : CompareOptions)
    (ctx : ExecContext) : Dispatch (Result Datum) :=
  let func_name :=
    match op options with
    | EQUAL => "equal"
    | NOT_EQUAL => "not_equal"
    | GREATER => "greater"
    | GREATER_EQUAL => "greater_equal"
    | LESS => "less"
    | LESS_EQUAL => "less_equal"
    end in
  CallFunction func_name [left; right] (Some (OfCompare options)) ctx.

(** *** Validity functions *)

Definition IsValid := SCALAR_EAGER_UNARY "is_valid".
Definition IsNull := SCALAR_EAGER_UNARY "is_null".
Definition IsNan := SCALAR_EAGER_UNARY "is_nan".

Definition FillNull (values fill_value : Datum) (ctx : ExecContext)
  : Dispatch (Result Datum) :=
  CallFunction "fill_null" [values; fill_value] None ctx.

Definition IfElse (cond if_true if_false : Datum) (ctx : ExecContext)
  : Dispatch (Result Datum) :=
  CallFunction "if_else" [cond; if_true; if_false] None ctx.

(** *** Temporal functions *)

Definition Year := SCALAR_EAGER_UNARY "year".
Definition Month := SCALAR_EAGER_UNARY "month".
Definition Day := SCALAR_EAGER_UNARY "day".
Definition DayOfWeek := SCALAR_EAGER_UNARY "day_of_week".
Definition DayOfYear := SCALAR_EAGER_UNARY "day_of_year".
Definition ISOYear := SCALAR_EAGER_UNARY "iso_year".
Definition ISOWeek := SCALAR_EAGER_UNARY "iso_week".
Definition ISOCalendar := SCALAR_EAGER_UNARY "iso_calendar".
Definition Quarter := SCALAR_EAGER_UNARY "quarter".
Definition Hour := SCALAR_EAGER_UNARY "hour".
Definition Minute := SCALAR_EAGER_UNARY "minute".
Definition Second := SCALAR_EAGER_UNARY "second".
Definition Millisecond := SCALAR_EAGER_UNARY "millisecond".
Definition Microsecond := SCALAR_EAGER_UNARY "microsecond".
Definition Nanosecond := SCALAR_EAGER_UNARY "nanosecond".
Definition Subsecond := SCALAR_EAGER_UNARY "subsecond".

(** ** The words of the specification

    The definitions below follow the text of the specification rather than
    the code; the theorems compare the entry points with them. *)

(** "Compute the probe's comparison type: if the probe's type is
    Dictionary-encoded, use its decoded value type; otherwise use the
    probe's own type directly." *)
Definition comparison_type (probe : Datum) : DataType :=
  if TypeId.eqb (DataType_id (Datum_type probe)) TypeId.DICTIONARY
  then DictionaryType_value_type (Datum_type probe)
  else Datum_type probe.

(** The message [ExecSetLookup] streams together when the type check
    fails, for the compared type and the type of the value set. *)
Definition mismatch_message (probe_type set_type : DataType) : string :=
  "Array type didn't match type of values set: "
  ++ DataType_ToString probe_type ++ " vs " ++ DataType_ToString set_type.

(** The Variant Selector: "return the checked name if [check_overflow] is
    true, else the base name", the checked name being the base name
    suffixed [_checked]. *)
Definition variant_name (base : string) (options : ArithmeticOptions) : string :=
  if check_overflow options then base ++ "_checked" else base.

(** A call selects the variant of [base] demanded by [options]: it
    delegates under the checked name exactly when [check_overflow] is set,
    and under the base name otherwise. *)
Definition selects_variant (base : string) (options : ArithmeticOptions)
    (p : Dispatch (Result Datum)) : Prop :=
  registry_name p = Some (variant_name base options)
  /\ (registry_name p = Some (base ++ "_checked")
      <-> check_overflow options = true)
  /\ (check_overflow options = false -> registry_name p = Some base).

(** The Operator Resolver: the canonical name of each comparison operator. *)
Definition operator_name (o : CompareOperator) : string :=
  match o with
  | EQUAL => "equal"
  | NOT_EQUAL => "not_equal"
  | GREATER => "greater"
  | GREATER_EQUAL => "greater_equal"
  | LESS => "less"
  | LESS_EQUAL => "less_equal"
  end.

(** Local validation failed: the call was answered with a failure without
    the registry being asked. *)
Definition rejected_locally (p : Dispatch (Result Datum)) : bool :=
  match p with
  | Return (Error _) => true
  | _ => false
  end.

(** ** The catalogue of public entry points

    One constructor per public function of the file, with its arguments;
    [invoke] is the call itself. *)

Inductive FacadeCall : Type :=
| Call_AbsoluteValue (arg : Datum) (options : ArithmeticOptions)
| Call_Negate (arg : Datum) (options : ArithmeticOptions)
| Call_Add (left right : Datum) (options : ArithmeticOptions)
| Call_Subtract (left right : Datum) (options : ArithmeticOptions)
| Call_Multiply (left right : Datum) (options : ArithmeticOptions)
| Call_Divide (left right : Datum) (options : ArithmeticOptions)
| Call_Power (left right : Datum) (options : ArithmeticOptions)
| Call_ElementWiseMax (args : list Datum) (options : ElementWiseAggregateOptions)
| Call_ElementWiseMin (args : list Datum) (options : ElementWiseAggregateOptions)
| Call_IsIn (values : Datum) (options : SetLookupOptions)
| Call_IsIn_value_set (values value_set : Datum)
| Call_IndexIn (values : Datum) (options : SetLookupOptions)
| Call_IndexIn_value_set (values value_set : Datum)
| Call_Invert (value : Datum)
| Call_And (left right : Datum)
| Call_KleeneAnd (left right : Datum)
| Call_Or (left right : Datum)
| Call_KleeneOr (left right : Datum)
| Call_Xor (left right : Datum)
| Call_AndNot (left right : Datum)
| Call_KleeneAndNot (left right : Datum)
| Call_Compare (left right : Datum) (options : CompareOptions)
| Call_IsValid (value : Datum)
| Call_IsNull (value : Datum)
| Call_IsNan (value : Datum)
| Call_FillNull (values fill_value : Datum)
| Call_IfElse (cond if_true if_false : Datum)
| Call_Year (value : Datum)
| Call_Month (value : Datum)
| Call_Day (value : Datum)
| Call_DayOfWeek (value : Datum)
| Call_DayOfYear (value : Datum)
| Call_ISOYear (value : Datum)
| Call_ISOWeek (value : Datum)
| Call_ISOCalendar (value : Datum)
| Call_Quarter (value : Datum)
| Call_Hour (value : Datum)
| Call_Minute (value : Datum)
| Call_Second (value : Datum)
| Call_Millisecond (value : Datum)
| Call_Microsecond (value : Datum)
| Call_Nanosecond (value : Datum)
| Call_Subsecond (value : Datum).

Definition invoke (c : FacadeCall) (ctx : ExecContext) : Dispatch (Result Datum) :=
  match c with
  | Call_AbsoluteValue a o => AbsoluteValue a o ctx
  | Call_Negate a o => Negate a o ctx
  | Call_Add l r o => Add l r o ctx
  | Call_Subtract l r o => Subtract l r o ctx
  | Call_Multiply l r o => Multiply l r o ctx
  | Call_Divide l r o => Divide l r o ctx
  | Call_Power l r o => Power l r o ctx
  | Call_ElementWiseMax args o => ElementWiseMax args o ctx
  | Call_ElementWiseMin args o => ElementWiseMin args o ctx
  | Call_IsIn v o => IsIn v o ctx
  | Call_IsIn_value_set v vs => IsIn_value_set v vs ctx
  | Call_IndexIn v o => IndexIn v o ctx
  | Call_IndexIn_value_set v vs => IndexIn_value_set v vs ctx
  | Call_Invert v => Invert v ctx
  | Call_And l r => And l r ctx
  | Call_KleeneAnd l r => KleeneAnd l r ctx
  | Call_Or l r => Or l r ctx
  | Call_KleeneOr l r => KleeneOr l r ctx
  | Call_Xor l r => Xor l r ctx
  | Call_AndNot l r => AndNot l r ctx
  | Call_KleeneAndNot l r => KleeneAndNot l r ctx
  | Call_Compare l r o => Compare l r o ctx
  | Call_IsValid v => IsValid v ctx
  | Call_IsNull v => IsNull v ctx
  | Call_IsNan v => IsNan v ctx
  | Call_FillNull v f => FillNull v f ctx
  | Call_IfElse c t e => IfElse c t e ctx
  | Call_Year v => Year v ctx
  | Call_Month v => Month v ctx
  | Call_Day v => Day v ctx
  | Call_DayOfWeek v => DayOfWeek v ctx
  | Call_DayOfYear v => DayOfYear v ctx
  | Call_ISOYear v => ISOYear v ctx
  | Call_ISOWeek v => ISOWeek v ctx
  | Call_ISOCalendar v => ISOCalendar v ctx
  | Call_Quarter v => Quarter v ctx
  | Call_Hour v => Hour v ctx
  | Call_Minute v => Minute v ctx
  | Call_Second v => Second v ctx
  | Call_Millisecond v => Millisecond v ctx
  | Call_Microsecond v => Microsecond v ctx
  | Call_Nanosecond v => Nanosecond v ctx
  | Call_Subsecond v => Subsecond v ctx
  end.

(** The request a call stands for, read off the catalogue of the
    specification: the resolved operation name, the arguments in order and
    the options record bound to the request.  The arithmetic functions
    spend their options on the choice of the name and bind none to the
    request; the functions without options bind none either. *)
Definition resolved_name (c : FacadeCall) : string :=
  match c with
  | Call_AbsoluteValue _ o => variant_name "abs" o
  | Call_Negate _ o => variant_name "negate" o
  | Call_Add _ _ o => variant_name "add" o
  | Call_Subtract _ _ o => variant_name "subtract" o
  | Call_Multiply _ _ o => variant_name "multiply" o
  | Call_Divide _ _ o => variant_name "divide" o
  | Call_Power _ _ o => variant_name "power" o
  | Call_ElementWiseMax _ _ => "element_wise_max"
  | Call_ElementWiseMin _ _ => "element_wise_min"
  | Call_IsIn _ _ | Call_IsIn_value_set _ _ => "is_in"
  | Call_IndexIn _ _ | Call_IndexIn_value_set _ _ => "index_in"
  | Call_Invert _ => "invert"
  | Call_And _ _ => "and"
  | Call_KleeneAnd _ _ => "and_kleene"
  | Call_Or _ _ => "or"
  | Call_KleeneOr _ _ => "or_kleene"
  | Call_Xor _ _ => "xor"
  | Call_AndNot _ _ => "and_not"
  | Call_KleeneAndNot _ _ => "and_not_kleene"
  | Call_Compare _ _ o => operator_name (op o)
  | Call_IsValid _ => "is_valid"
  | Call_IsNull _ => "is_null"
  | Call_IsNan _ => "is_nan"
  | Call_FillNull _ _ => "fill_null"
  | Call_IfElse _ _ _ => "if_else"
  | Call_Year _ => "year"
  | Call_Month _ => "month"
  | Call_Day _ => "day"
  | Call_DayOfWeek _ => "day_of_week"
  | Call_DayOfYear _ => "day_of_year"
  | Call_ISOYear _ => "iso_year"
  | Call_ISOWeek _ => "iso_week"
  | Call_ISOCalendar _ => "iso_calendar"
  | Call_Quarter _ => "quarter"
  | Call_Hour _ => "hour"
  | Call_Minute _ => "minute"
  | Call_Second _ => "second"
  | Call_Millisecond _ => "millisecond"
  | Call_Microsecond _ => "microsecond"
  | Call_Nanosecond _ => "nanosecond"
  | Call_Subsecond _ => "subsecond"
  end.

Definition given_arguments (c : FacadeCall) : list Datum :=
  match c with
  | Call_AbsoluteValue a _ | Call_Negate a _ => [a]
  | Call_Add l r _ | Call_Subtract l r _ | Call_Multiply l r _
  | Call_Divide l r _ | Call_Power l r _ => [l; r]
  | Call_ElementWiseMax args _ | Call_ElementWiseMin args _ => args
  | Call_IsIn v _ | Call_IsIn_value_set v _
  | Call_IndexIn v _ | Call_IndexIn_value_set v _ => [v]
  | Call_And l r | Call_KleeneAnd l r | Call_Or l r | Call_KleeneOr l r
  | Call_Xor l r | Call_AndNot l r | Call_KleeneAndNot l r => [l; r]
  | Call_Compare l r _ => [l; r]
  | Call_FillNull v f => [v; f]
  | Call_IfElse c t e => [c; t; e]
  | Call_Invert v | Call_IsValid v | Call_IsNull v | Call_IsNan v
  | Call_Year v | Call_Month v | Call_Day v | Call_DayOfWeek v
  | Call_DayOfYear v | Call_ISOYear v | Call_ISOWeek v | Call_ISOCalendar v
  | Call_Quarter v | Call_Hour v | Call_Minute v | Call_Second v
  | Call_Millisecond v | Call_Microsecond v | Call_Nanosecond v
  | Call_Subsecond v => [v]
  end.

Definition bound_options (c : FacadeCall) : option FunctionOptions :=
  match c with
  | Call_ElementWiseMax _ o | Call_ElementWiseMin _ o =>
      Some (OfElementWiseAggregate o)
  | Call_IsIn _ o | Call_IndexIn _ o => Some (OfSetLookup o)
  | Call_IsIn_value_set _ vs | Call_IndexIn_value_set _ vs =>
      Some (OfSetLookup (SetLookupOptions_of vs))
  | Call_Compare _ _ o => Some (OfCompare o)
  | _ => None
  end.

Definition resolved_request (c : FacadeCall) (ctx : ExecContext) : RegistryCall :=
  {| call_name := resolved_name c;
     call_args := given_arguments c;
     call_options := bound_options c;
     call_ctx := ctx |}.

(** The entry points that go through [ExecSetLookup]. *)
Definition is_set_lookup (c : FacadeCall) : bool :=
  match c with
  | Call_IsIn _ _ | Call_IsIn_value_set _ _
  | Call_IndexIn _ _ | Call_IndexIn_value_set _ _ => true
  | _ => false
  end.

(** The name of the C++ function a call is a call of; the two overloads of
    [IsIn] share a name, and so do the two of [IndexIn]. *)
Definition cpp_name (c : FacadeCall) : string :=
  match c with
  | Call_AbsoluteValue _ _ => "AbsoluteValue"
  | Call_Negate _ _ => "Negate"
  | Call_Add _ _ _ => "Add"
  | Call_Subtract _ _ _ => "Subtract"
  | Call_Multiply _ _ _ => "Multiply"
  | Call_Divide _ _ _ => "Divide"
  | Call_Power _ _ _ => "Power"
  | Call_ElementWiseMax _ _ => "ElementWiseMax"
  | Call_ElementWiseMin _ _ => "ElementWiseMin"
  | Call_IsIn _ _ | Call_IsIn_value_set _ _ => "IsIn"
  | Call_IndexIn _ _ | Call_IndexIn_value_set _ _ => "IndexIn"
  | Call_Invert _ => "Invert"
  | Call_And _ _ => "And"
  | Call_KleeneAnd _ _ => "KleeneAnd"
  | Call_Or _ _ => "Or"
  | Call_KleeneOr _ _ => "KleeneOr"
  | Call_Xor _ _ => "Xor"
  | Call_AndNot _ _ => "AndNot"
  | Call_KleeneAndNot _ _ => "KleeneAndNot"
  | Call_Compare _ _ _ => "Compare"
  | Call_IsValid _ => "IsValid"
  | Call_IsNull _ => "IsNull"
  | Call_IsNan _ => "IsNan"
  | Call_FillNull _ _ => "FillNull"
  | Call_IfElse _ _ _ => "IfElse"
  | Call_Year _ => "Year"
  | Call_Month _ => "Month"
  | Call_Day _ => "Day"
  | Call_DayOfWeek _ => "DayOfWeek"
  | Call_DayOfYear _ => "DayOfYear"
  | Call_ISOYear _ => "ISOYear"
  | Call_ISOWeek _ => "ISOWeek"
  | Call_ISOCalendar _ => "ISOCalendar"
  | Call_Quarter _ => "Quarter"
  | Call_Hour _ => "Hour"
  | Call_Minute _ => "Minute"
  | Call_Second _ => "Second"
  | Call_Millisecond _ => "Millisecond"
  | Call_Microsecond _ => "Microsecond"
  | Call_Nanosecond _ => "Nanosecond"
  | Call_Subsecond _ => "Subsecond"
  end.

(** What the name resolution of a call reads from its options: the
    overflow flag of an arithmetic call, the operator of a comparison,
    nothing otherwise. *)
Inductive Selector : Set :=
| NoSelector
| Overflow (checked : bool)
| Operator (o : CompareOperator).

Definition selector (c : FacadeCall) : Selector :=
  match c with
  | Call_AbsoluteValue _ o | Call_Negate _ o
  | Call_Add _ _ o | Call_Subtract _ _ o | Call_Multiply _ _ o
  | Call_Divide _ _ o | Call_Power _ _ o => Overflow (check_overflow o)
  | Call_Compare _ _ o => Operator (op o)
  | _ => NoSelector
  end.

(** The local validation of the specification, decided from the inputs
    alone.  A set lookup passes when its value set is array-like and, if
    it has an element, has the probe's comparison type (steps 1 to 4 of
    the Set-Lookup Validator); the other entry points have no local
    validation, so every call of them passes. *)
Definition set_lookup_valid (probe : Datum) (options : SetLookupOptions)
  : bool :=
  Datum_is_arraylike (value_set options)
  && (negb (Datum_length (value_set options) >? 0)%Z
      || DataType_Equals (comparison_type probe)
                         (Datum_type (value_set options))).

Definition passes_local_validation (c : FacadeCall) : bool :=
  match c with
  | Call_IsIn v o | Call_IndexIn v o => set_lookup_valid v o
  | Call_IsIn_value_set v vs | Call_IndexIn_value_set v vs =>
      set_lookup_valid v (SetLookupOptions_of vs)
  | _ => true
  end.

End Facade.

(** ** A small instance of the collaborators

    Modelled from the spec: the logical types, the Datum variants and their
    observers (sections 3 and 6 of the specification), which are declared
    outside [api_scalar.cc].  The instance is used to run the entry points
    on concrete inputs; the theorems hold for every instance. *)

Module Fixture.

Inductive ArrowType : Set :=
| null | boolean | int8 | int32 | int64 | float64 | utf8
| dictionary (index_type value_type : ArrowType) (ordered : bool).

Definition id (t : ArrowType) : TypeId.t :=
  match t with
  | null => TypeId.NA
  | boolean => TypeId.BOOL
  | int8 => TypeId.INT8
  | int32 => TypeId.INT32
  | int64 => TypeId.INT64
  | float64 => TypeId.DOUBLE
  | utf8 => TypeId.STRING
  | dictionary _ _ _ => TypeId.DICTIONARY
  end.

(** The value type of a dictionary type; the facade does not ask for it on
    another type. *)
Definition value_type (t : ArrowType) : ArrowType :=
  match t with
  | dictionary _ v _ => v
  | other => other
  end.

Fixpoint Equals (a b : ArrowType) : bool :=
  match a, b with
  | null, null | boolean, boolean | int8, int8 | int32, int32
  | int64, int64 | float64, float64 | utf8, utf8 => true
  | dictionary i v o, dictionary i' v' o' =>
      Equals i i' && Equals v v' && Bool.eqb o o'
  | _, _ => false
  end.

Fixpoint ToString (t : ArrowType) : string :=
  match t with
  | null => "null"
  | boolean => "bool"
  | int8 => "int8"
  | int32 => "int32"
  | int64 => "int64"
  | float64 => "double"
  | utf8 => "string"
  | dictionary i v o =>
      "dictionary<values=" ++ ToString v ++ ", indices=" ++ ToString i
      ++ ", ordered=" ++ (if o then "1" else "0") ++ ">"
  end.

Inductive DatumKind : Set := SCALAR | ARRAY | CHUNKED_ARRAY | TABLE.

Record ArrowDatum : Set := {
  kind : DatumKind;
  type : ArrowType;
  slots : list (option Z)
}.

Definition is_arraylike (d : ArrowDatum) : bool :=
  match kind d with
  | ARRAY | CHUNKED_ARRAY => true
  | SCALAR | TABLE => false
  end.

Definition length (d : ArrowDatum) : Z :=
  match kind d with
  | SCALAR => 1
  | ARRAY | CHUNKED_ARRAY => Z.of_nat (List.length (slots d))
  | TABLE => -1
  end.

Definition env : Collaborators := {|
  DataType := ArrowType;
  Datum := ArrowDatum;
  ExecContext := unit;
  DataType_id := id;
  DictionaryType_value_type := value_type;
  DataType_Equals := Equals;
  DataType_ToString := ToString;
  Datum_type := type;
  Datum_is_arraylike := is_arraylike;
  Datum_length := length
|}.

(** Probes and value sets of the example scenarios. *)

Definition int32_array : ArrowDatum :=
  {| kind := ARRAY; type := int32; slots := [Some 1; Some 2; None]%Z |}.

Definition int64_chunked_5 : ArrowDatum :=
  {| kind := CHUNKED_ARRAY; type := int64;
     slots := [Some 1; Some 2; Some 3; Some 4; Some 5]%Z |}.

Definition int64_empty : ArrowDatum :=
  {| kind := ARRAY; type := int64; slots := [] |}.

Definition int64_scalar : ArrowDatum :=
  {| kind := SCALAR; type := int64; slots := [Some 7%Z] |}.

Definition int32_scalar : ArrowDatum :=
  {| kind := SCALAR; type := int32; slots := [Some 7%Z] |}.

Definition int8_array_3 : ArrowDatum :=
  {| kind := ARRAY; type := int8; slots := [Some 0; Some 1; Some 2]%Z |}.

Definition string_array_3 : ArrowDatum :=
  {| kind := ARRAY; type := utf8; slots := [Some 0; Some 1; Some 2]%Z |}.

Definition dict_int8_string : ArrowType := dictionary int8 utf8 false.

Definition dict_array : ArrowDatum :=
  {| kind := ARRAY; type := dict_int8_string; slots := [Some 0; Some 1]%Z |}.

Definition nested_dict_array : ArrowDatum :=
  {| kind := ARRAY; type := dictionary int8 dict_int8_string false;
     slots := [Some 0; Some 1]%Z |}.

Definition lookup_in (vs : ArrowDatum) : @SetLookupOptions env :=
  @Build_SetLookupOptions env vs true.

(** A registry that knows [is_in] and [add] only: [is_in] answers with its
    probe, [add] fails in its kernel, every other name is not found. *)
Definition registry : @Registry env :=
  fun c =>
    if String.eqb (call_name c) "is_in" then
      match call_args c with
      | probe :: _ => Ok probe
      | [] => Error (Status.Make StatusCode.Invalid "is_in: no argument")
      end
    else if String.eqb (call_name c) "add" then
      Error (Status.Make StatusCode.ExecutionError "add: kernel failed")
    else
      Error (Status.Make StatusCode.KeyError
               ("No function registered with name: " ++ call_name c)).

End Fixture.

(** * Properties *)

(** ** Substrings *)

Lemma contains_unfold (needle hay : string) :
  contains needle hay
  = prefix needle hay
    || match hay with
       | EmptyString => false
       | String _ rest => contains needle rest
       end.
Proof. destruct hay; reflexivity. Qed.

Lemma prefix_append (s t : string) : prefix s (s ++ t) = true.
Proof.
  induction s as [|a s IH]; simpl.
  - destruct t; reflexivity.
  - destruct (ascii_dec a a) as [_|ne]; [exact IH | now elim ne].
Qed.

Lemma contains_append (pre s post : string) :
  contains s (pre ++ s ++ post) = true.
Proof.
  induction pre as [|a pre IH].
  - change (EmptyString ++ s ++ post) with (s ++ post).
    rewrite contains_unfold, prefix_append. reflexivity.
  - change (String a pre ++ s ++ post) with (String a (pre ++ s ++ post)).
    rewrite contains_unfold, IH. apply orb_true_r.
Qed.

Lemma append_assoc (a b c : string) : (a ++ b) ++ c = a ++ b ++ c.
Proof. induction a as [|x a IH]; simpl; [reflexivity | now rewrite IH]. Qed.

Section Properties.

Context {env : Collaborators}.

Lemma mismatch_message_names_both (probe_type set_type : DataType) :
  contains (DataType_ToString probe_type)
           (mismatch_message probe_type set_type) = true
  /\ contains (DataType_ToString set_type)
              (mismatch_message probe_type set_type) = true.
Proof.
  unfold mismatch_message. split.
  - apply contains_append.
  - rewrite <- (append_assoc _ (DataType_ToString probe_type) _).
    rewrite <- (append_assoc _ " vs " _).
    replace (DataType_ToString set_type)
      with (DataType_ToString set_type ++ "") at 2
      by (induction (DataType_ToString set_type) as [|c s IH];
          simpl; [reflexivity | now rewrite IH]).
    apply contains_append.
Qed.

(** ** The set-lookup validator, case by case *)

Lemma ExecSetLookup_unfold (func_name : string) (data : Datum)
    (options : SetLookupOptions) (ctx : ExecContext) :
  ExecSetLookup func_name data options ctx
  = if negb (Datum_is_arraylike (value_set options)) then
      Return (Error (Status.Invalid
                       "Set lookup value set must be Array or ChunkedArray"))
    else if (Datum_length (value_set options) >? 0)%Z
            && negb (DataType_Equals (comparison_type data)
                                     (Datum_type (value_set options)))
    then Return (Error (Status.Invalid
                          (mismatch_message (comparison_type data)
                                            (Datum_type (value_set options)))))
    else CallFunction func_name [data] (Some (OfSetLookup options)) ctx.
Proof. reflexivity. Qed.

Lemma ExecSetLookup_not_arraylike func_name data options ctx :
  Datum_is_arraylike (value_set options) = false ->
  ExecSetLookup func_name data options ctx
  = Return (Error (Status.Invalid
                     "Set lookup value set must be Array or ChunkedArray")).
Proof. intros H. rewrite ExecSetLookup_unfold, H. reflexivity. Qed.

Lemma ExecSetLookup_mismatch func_name data options ctx :
  Datum_is_arraylike (value_set options) = true ->
  (Datum_length (value_set options) > 0)%Z ->
  DataType_Equals (comparison_type data) (Datum_type (value_set options))
  = false ->
  ExecSetLookup func_name data options ctx
  = Return (Error (Status.Invalid
                     (mismatch_message (comparison_type data)
                                       (Datum_type (value_set options))))).
Proof.
  intros Ha Hl He. rewrite ExecSetLookup_unfold, Ha, He.
  apply Z.gtb_gt in Hl. rewrite Hl. reflexivity.
Qed.

Lemma ExecSetLookup_match func_name data options ctx :
  Datum_is_arraylike (value_set options) = true ->
  DataType_Equals (comparison_type data) (Datum_type (value_set options))
  = true ->
  ExecSetLookup func_name data options ctx
  = CallFunction func_name [data] (Some (OfSetLookup options)) ctx.
Proof.
  intros Ha He. rewrite ExecSetLookup_unfold, Ha, He.
  simpl. rewrite andb_false_r. reflexivity.
Qed.

Lemma ExecSetLookup_empty func_name data options ctx :
  Datum_is_arraylike (value_set options) = true ->
  Datum_length (value_set options) = 0%Z ->
  ExecSetLookup func_name data options ctx
  = CallFunction func_name [data] (Some (OfSetLookup options)) ctx.
Proof. intros Ha Hl. rewrite ExecSetLookup_unfold, Ha, Hl. reflexivity. Qed.

Lemma comparison_type_dictionary (probe : Datum) :
  DataType_id (Datum_type probe) = TypeId.DICTIONARY ->
  comparison_type probe = DictionaryType_value_type (Datum_type probe).
Proof. intros H. unfold comparison_type. rewrite H. reflexivity. Qed.

Lemma comparison_type_plain (probe : Datum) :
  DataType_id (Datum_type probe) <> TypeId.DICTIONARY ->
  comparison_type probe = Datum_type probe.
Proof.
  intros H. unfold comparison_type, TypeId.eqb.
  destruct (TypeId.eq_dec _ _) as [e|_]; [now elim H | reflexivity].
Qed.

Lemma run_Return {A : Type} (reg : Registry) (a : A) :
  run reg (Return a) = (a, []).
Proof. reflexivity. Qed.

Lemma run_CallFunction (reg : Registry) func_name args options ctx :
  run reg (CallFunction func_name args options ctx)
  = (reg {| call_name := func_name; call_args := args;
            call_options := options; call_ctx := ctx |},
     [{| call_name := func_name; call_args := args;
         call_options := options; call_ctx := ctx |}]).
Proof. reflexivity. Qed.

(** ** The claims about set lookup *)

(** C1.  A set-membership call ([IsIn] or [IndexIn]) whose value set is
    array-like and non-empty, and whose type is not equal to the probe's
    comparison type (the probe's own type, or the value type of a
    dictionary-typed probe), fails with [Invalid]; the message contains
    the name of the comparison type and the name of the value set's type;
    the registry is not asked, whatever it is. *)
Theorem set_lookup_type_mismatch_rejected
    (values : Datum) (options : SetLookupOptions) (ctx : ExecContext) :
  Datum_is_arraylike (value_set options) = true ->
  (Datum_length (value_set options) > 0)%Z ->
  DataType_Equals (comparison_type values) (Datum_type (value_set options))
  = false ->
  exists msg : string,
    IsIn values options ctx = Return (Error (Status.Invalid msg))
    /\ IndexIn values options ctx = Return (Error (Status.Invalid msg))
    /\ contains (DataType_ToString (comparison_type values)) msg = true
    /\ contains (DataType_ToString (Datum_type (value_set options))) msg = true
    /\ forall reg : Registry,
         run reg (IsIn values options ctx)
         = (Error (Status.Invalid msg), [])
         /\ run reg (IndexIn values options ctx)
            = (Error (Status.Invalid msg), []).
Proof.
  intros Ha Hl He.
  exists (mismatch_message (comparison_type values)
                           (Datum_type (value_set options))).
  unfold IsIn, IndexIn.
  rewrite !(ExecSetLookup_mismatch _ _ _ _ Ha Hl He).
  destruct (mismatch_message_names_both
              (comparison_type values) (Datum_type (value_set options)))
    as [Hp Hs].
  repeat split; assumption.
Qed.

(** C2.  A set-membership call whose value set is array-like and empty
    skips the type check: for a probe of any type, equal to the value
    set's type or not, no [Invalid] is raised and the call is delegated
    to the registry under its own name. *)
Theorem set_lookup_empty_value_set_delegates
    (values : Datum) (options : SetLookupOptions) (ctx : ExecContext) :
  Datum_is_arraylike (value_set options) = true ->
  Datum_length (value_set options) = 0%Z ->
  IsIn values options ctx
  = CallFunction "is_in" [values] (Some (OfSetLookup options)) ctx
  /\ IndexIn values options ctx
     = CallFunction "index_in" [values] (Some (OfSetLookup options)) ctx
  /\ rejected_locally (IsIn values options ctx) = false
  /\ rejected_locally (IndexIn values options ctx) = false.
Proof.
  intros Ha Hl. unfold IsIn, IndexIn.
  rewrite !(ExecSetLookup_empty _ _ _ _ Ha Hl).
  repeat split.
Qed.

(** C5.  When the value set is array-like and non-empty, the type check
    of a dictionary-typed probe compares the dictionary's value type with
    the value set's type, and the outcome depends on nothing else of the
    probe's type (neither the dictionary type itself nor its index type
    is read); for any other probe the probe's own type is compared. *)
Theorem set_lookup_compares_decoded_value_type
    (values : Datum) (options : SetLookupOptions) (ctx : ExecContext) :
  Datum_is_arraylike (value_set options) = true ->
  (Datum_length (value_set options) > 0)%Z ->
  let set_type := Datum_type (value_set options) in
  let verdict (func_name : string) (compared : DataType) :=
    if DataType_Equals compared set_type
    then CallFunction func_name [values] (Some (OfSetLookup options)) ctx
    else Return (Error (Status.Invalid (mismatch_message compared set_type)))
  in
  (DataType_id (Datum_type values) = TypeId.DICTIONARY ->
   IsIn values options ctx
   = verdict "is_in" (DictionaryType_value_type (Datum_type values))
   /\ IndexIn values options ctx
      = verdict "index_in" (DictionaryType_value_type (Datum_type values)))
  /\ (DataType_id (Datum_type values) <> TypeId.DICTIONARY ->
      IsIn values options ctx = verdict "is_in" (Datum_type values)
      /\ IndexIn values options ctx = verdict "index_in" (Datum_type values)).
Proof.
  intros Ha Hl set_type verdict.
  assert (Hgen : forall func_name,
             ExecSetLookup func_name values options ctx
             = verdict func_name (comparison_type values)).
  { intros func_name. unfold verdict, set_type.
    destruct (DataType_Equals (comparison_type values)
                              (Datum_type (value_set options))) eqn:He.
    - now apply ExecSetLookup_match.
    - now apply ExecSetLookup_mismatch. }
  unfold IsIn, IndexIn. split; intros Hid.
  - rewrite <- (comparison_type_dictionary _ Hid). split; apply Hgen.
  - rewrite <- (comparison_type_plain _ Hid). split; apply Hgen.
Qed.

(** C6.  A set-membership call whose value set is not array-like (a bare
    scalar, say) fails with [Invalid], whatever the types and whatever the
    length of the value set, and the registry is not asked. *)
Theorem set_lookup_value_set_not_arraylike
    (values : Datum) (options : SetLookupOptions) (ctx : ExecContext) :
  Datum_is_arraylike (value_set options) = false ->
  let failure :=
    Error (Status.Invalid
             "Set lookup value set must be Array or ChunkedArray") in
  IsIn values options ctx = Return failure
  /\ IndexIn values options ctx = Return failure
  /\ forall reg : Registry,
       run reg (IsIn values options ctx) = (failure, [])
       /\ run reg (IndexIn values options ctx) = (failure, []).
Proof.
  intros Ha failure. unfold IsIn, IndexIn.
  rewrite !(ExecSetLookup_not_arraylike _ _ _ _ Ha).
  repeat split.
Qed.

(** C10.  The dictionary is unwrapped one level only: for a probe whose
    type is a dictionary whose value type is again a dictionary, and an
    array-like non-empty value set, the type compared with the value
    set's type is that immediate value type.  The call is delegated when
    the two are equal and rejected, naming the immediate value type, when
    they are not, even if the value type of the inner dictionary equals
    the value set's type. *)
Theorem set_lookup_unwraps_one_level
    (values : Datum) (options : SetLookupOptions) (ctx : ExecContext) :
  Datum_is_arraylike (value_set options) = true ->
  (Datum_length (value_set options) > 0)%Z ->
  DataType_id (Datum_type values) = TypeId.DICTIONARY ->
  DataType_id (DictionaryType_value_type (Datum_type values))
  = TypeId.DICTIONARY ->
  let set_type := Datum_type (value_set options) in
  let inner := DictionaryType_value_type (Datum_type values) in
  comparison_type values = inner
  /\ (DataType_Equals inner set_type = true ->
      IsIn values options ctx
      = CallFunction "is_in" [values] (Some (OfSetLookup options)) ctx
      /\ IndexIn values options ctx
         = CallFunction "index_in" [values] (Some (OfSetLookup options)) ctx)
  /\ (DataType_Equals inner set_type = false ->
      forall innermost_matches : bool,
        DataType_Equals (DictionaryType_value_type inner) set_type
        = innermost_matches ->
        IsIn values options ctx
        = Return (Error (Status.Invalid (mismatch_message inner set_type)))
        /\ IndexIn values options ctx
           = Return (Error (Status.Invalid
                              (mismatch_message inner set_type)))).
Proof.
  intros Ha Hl Hid _ set_type inner.
  pose proof (comparison_type_dictionary _ Hid) as Hc.
  split; [exact Hc|]. unfold IsIn, IndexIn, inner, set_type.
  rewrite <- Hc. split.
  - intros He. now rewrite !(ExecSetLookup_match _ _ _ _ Ha He).
  - intros He _ _. now rewrite !(ExecSetLookup_mismatch _ _ _ _ Ha Hl He).
Qed.

(** C7.  The overloads taking a bare value set behave as the overloads
    taking options do on the options record built from the value set
    with its remaining field defaulted: the same call, hence the same
    result, the same failure and the same requests under every registry. *)
Theorem value_set_overloads_equivalent
    (values value_set : Datum) (ctx : ExecContext) :
  IsIn_value_set values value_set ctx
  = IsIn values (SetLookupOptions_of value_set) ctx
  /\ IndexIn_value_set values value_set ctx
     = IndexIn values (SetLookupOptions_of value_set) ctx
  /\ forall reg : Registry,
       run reg (IsIn_value_set values value_set ctx)
       = run reg (IsIn values (SetLookupOptions_of value_set) ctx)
       /\ run reg (IndexIn_value_set values value_set ctx)
          = run reg (IndexIn values (SetLookupOptions_of value_set) ctx).
Proof. repeat split. Qed.

(** C8.  [IsIn] and [IndexIn] validate alike: on the same probe, options
    and context either both fail with the same [Invalid] status, or both
    delegate the same arguments and options, [IsIn] under the name
    [is_in] and [IndexIn] under the name [index_in]. *)
Theorem IsIn_IndexIn_same_validation
    (values : Datum) (options : SetLookupOptions) (ctx : ExecContext) :
  (exists msg : string,
      IsIn values options ctx = Return (Error (Status.Invalid msg))
      /\ IndexIn values options ctx = Return (Error (Status.Invalid msg)))
  \/ (IsIn values options ctx
      = CallFunction "is_in" [values] (Some (OfSetLookup options)) ctx
      /\ IndexIn values options ctx
         = CallFunction "index_in" [values] (Some (OfSetLookup options)) ctx).
Proof.
  unfold IsIn, IndexIn. rewrite !ExecSetLookup_unfold.
  destruct (negb (Datum_is_arraylike (value_set options))).
  - left. eexists. split; reflexivity.
  - destruct ((Datum_length (value_set options) >? 0)%Z
              && negb (DataType_Equals (comparison_type values)
                                       (Datum_type (value_set options)))).
    + left. eexists. split; reflexivity.
    + right. split; reflexivity.
Qed.

(** ** Name resolution *)

Lemma variant_selected (base : string) (options : ArithmeticOptions)
    (args : list Datum) (ctx : ExecContext) :
  base ++ "_checked" <> base ->
  selects_variant base options
    (CallFunction (if check_overflow options then base ++ "_checked" else base)
                  args None ctx).
Proof.
  intros Hne. unfold selects_variant, variant_name.
  destruct options as [[|]]; simpl; repeat split; intros; try congruence.
Qed.

Ltac variant :=
  intros;
  unfold AbsoluteValue, Negate, Add, Subtract, Multiply, Divide, Power,
    SCALAR_ARITHMETIC_UNARY, SCALAR_ARITHMETIC_BINARY;
  apply variant_selected; simpl; discriminate.

(** C3.  Each of the seven arithmetic functions with a checked variant
    delegates under a name chosen by [check_overflow] alone: the base name
    suffixed [_checked] if and only if the flag is set, the base name
    otherwise; the choice always yields a name. *)
Theorem arithmetic_variant_selection
    (options : ArithmeticOptions) (ctx : ExecContext) :
  (forall arg, selects_variant "abs" options (AbsoluteValue arg options ctx))
  /\ (forall arg, selects_variant "negate" options (Negate arg options ctx))
  /\ (forall l r, selects_variant "add" options (Add l r options ctx))
  /\ (forall l r, selects_variant "subtract" options (Subtract l r options ctx))
  /\ (forall l r, selects_variant "multiply" options (Multiply l r options ctx))
  /\ (forall l r, selects_variant "divide" options (Divide l r options ctx))
  /\ (forall l r, selects_variant "power" options (Power l r options ctx)).
Proof.
  split; [variant|]. split; [variant|]. split; [variant|].
  split; [variant|]. split; [variant|]. split; variant.
Qed.

(** C4.  [Compare] delegates under the canonical name of its operator:
    [equal], [not_equal], [greater], [greater_equal], [less] and
    [less_equal] for the six operators in turn.  Every operator has a
    name, no name is empty, and two calls resolve to the same name only
    if their operators are the same. *)
Theorem compare_operator_resolution :
  (forall l r o ctx,
      Compare l r o ctx
      = CallFunction (operator_name (op o)) [l; r] (Some (OfCompare o)) ctx)
  /\ (forall l r ctx,
        registry_name (Compare l r {| op := EQUAL |} ctx) = Some "equal"
        /\ registry_name (Compare l r {| op := NOT_EQUAL |} ctx)
           = Some "not_equal"
        /\ registry_name (Compare l r {| op := GREATER |} ctx)
           = Some "greater"
        /\ registry_name (Compare l r {| op := GREATER_EQUAL |} ctx)
           = Some "greater_equal"
        /\ registry_name (Compare l r {| op := LESS |} ctx) = Some "less"
        /\ registry_name (Compare l r {| op := LESS_EQUAL |} ctx)
           = Some "less_equal")
  /\ (forall l r o ctx,
        registry_name (Compare l r o ctx) <> None
        /\ registry_name (Compare l r o ctx) <> Some "")
  /\ (forall l r o ctx l' r' o' ctx',
        registry_name (Compare l r o ctx)
        = registry_name (Compare l' r' o' ctx') ->
        op o = op o').
Proof.
  split; [|split; [|split]].
  - intros l r [[]] ctx; reflexivity.
  - intros l r ctx. repeat split.
  - intros l r [[]] ctx; split; discriminate.
  - intros l r [[]] ctx l' r' [[]] ctx'; simpl; intros H;
      first [reflexivity | discriminate H].
Qed.

(** ** Delegation *)

(** A set lookup that passes the validation is the request itself. *)
Lemma ExecSetLookup_valid func_name data options ctx :
  set_lookup_valid data options = true ->
  ExecSetLookup func_name data options ctx
  = CallFunction func_name [data] (Some (OfSetLookup options)) ctx.
Proof.
  unfold set_lookup_valid. intros Hvalid.
  apply andb_true_iff in Hvalid. destruct Hvalid as [Ha Hcheck].
  rewrite ExecSetLookup_unfold, Ha. simpl.
  apply orb_true_iff in Hcheck. destruct Hcheck as [Hlen|Heq].
  - apply negb_true_iff in Hlen. rewrite Hlen. reflexivity.
  - rewrite Heq, andb_false_r. reflexivity.
Qed.

(** C9.  Every public entry point whose local validation passes is
    exactly one request to the registry whose answer is handed back as it
    is.  The validation is decided from the inputs: it is the check of
    the value set for the set lookups and there is none for the other
    entry points, which therefore always delegate.  The request carries
    the resolved name, the given arguments and the options bound to the
    request (the caller's record for the element-wise, set-lookup and
    comparison functions, none for the others, the arithmetic functions
    having spent theirs on the name).  Under every registry the result is
    the registry's answer to that request, success or failure alike, and
    the request is made once. *)
Theorem facade_returns_registry_result (c : FacadeCall) (ctx : ExecContext) :
  passes_local_validation c = true ->
  invoke c ctx
  = CallFunction (resolved_name c) (given_arguments c) (bound_options c) ctx
  /\ rejected_locally (invoke c ctx) = false
  /\ forall reg : Registry,
       run reg (invoke c ctx)
       = (reg (resolved_request c ctx), [resolved_request c ctx])
       /\ (forall status,
              reg (resolved_request c ctx) = Error status ->
              fst (run reg (invoke c ctx)) = Error status)
       /\ (forall value,
              reg (resolved_request c ctx) = Ok value ->
              fst (run reg (invoke c ctx)) = Ok value).
Proof.
  intros Hpass.
  assert (Hcall : invoke c ctx
                  = CallFunction (resolved_name c) (given_arguments c)
                                 (bound_options c) ctx).
  { destruct c; simpl in *;
      try reflexivity;
      try (destruct options as [[|]]; reflexivity);
      try (destruct options as [[]]; reflexivity);
      unfold IsIn, IsIn_value_set, IndexIn, IndexIn_value_set;
      now apply ExecSetLookup_valid. }
  split; [exact Hcall|]. rewrite Hcall. split; [reflexivity|]. intros reg.
  rewrite run_CallFunction. unfold resolved_request. simpl.
  repeat split; intros ? H; exact H.
Qed.

End Properties.

(** * Further properties of the facade *)

Section Further.

Context {env : Collaborators}.

(** Every call is either a set lookup answered locally with [Invalid], or
    the one request of the catalogue. *)
Lemma invoke_cases (c : FacadeCall) (ctx : ExecContext) :
  (is_set_lookup c = true
   /\ exists msg : string, invoke c ctx = Return (Error (Status.Invalid msg)))
  \/ invoke c ctx
     = CallFunction (resolved_name c) (given_arguments c) (bound_options c) ctx.
Proof.
  destruct c; simpl;
    try (right; reflexivity);
    try (right; destruct options as [[|]]; reflexivity);
    try (right; destruct options as [[]]; reflexivity);
    unfold IsIn, IsIn_value_set, IndexIn, IndexIn_value_set;
    rewrite ExecSetLookup_unfold;
    repeat match goal with
           | |- context [if ?b then _ else _] => destruct b
           end;
    first [ right; reflexivity
          | left; split; [reflexivity | eexists; reflexivity] ].
Qed.

Lemma comparison_type_same_type (d d' : Datum) :
  Datum_type d = Datum_type d' -> comparison_type d = comparison_type d'.
Proof. intros H. unfold comparison_type. now rewrite H. Qed.

(** ** When a set lookup is accepted *)

(** X1.  The acceptance criterion of the set-lookup validator: the call is
    delegated if and only if the value set is array-like and either has no
    element or has the probe's comparison type; it is rejected locally in
    every other case. *)
Theorem set_lookup_delegates_iff
    (func_name : string) (data : Datum) (options : SetLookupOptions)
    (ctx : ExecContext) :
  let accepted :=
    Datum_is_arraylike (value_set options) = true
    /\ ((Datum_length (value_set options) <= 0)%Z
        \/ DataType_Equals (comparison_type data)
                           (Datum_type (value_set options)) = true) in
  (ExecSetLookup func_name data options ctx
   = CallFunction func_name [data] (Some (OfSetLookup options)) ctx
   <-> accepted)
  /\ (rejected_locally (ExecSetLookup func_name data options ctx) = true
      <-> ~ accepted).
Proof.
  intros accepted. unfold accepted. rewrite ExecSetLookup_unfold.
  destruct (Datum_is_arraylike (value_set options)); simpl.
  - destruct (Z.gtb_spec (Datum_length (value_set options)) 0) as [Hl|Hl];
      destruct (DataType_Equals (comparison_type data)
                                (Datum_type (value_set options)));
      simpl; (split; split);
      try (intros _; split; [reflexivity|]; first [now right | left; lia]);
      try reflexivity; try discriminate;
      try (intros [_ [H|H]]; [lia | discriminate H]);
      try (intros H; exfalso; apply H; split;
           [reflexivity | first [now right | left; lia]]);
      try (intros _ [_ [H|H]]; [lia | discriminate H]).
  - split; split; try discriminate; try reflexivity.
    + intros [H _]; discriminate H.
    + intros _ [H _]; discriminate H.
Qed.

(** X2.  The message tells which check failed: the call returns the
    "must be Array or ChunkedArray" failure exactly when the value set is
    not array-like, and the type-mismatch failure exactly when the value
    set is array-like, non-empty and of another type than the probe's
    comparison type. *)
Theorem set_lookup_failure_cause
    (func_name : string) (data : Datum) (options : SetLookupOptions)
    (ctx : ExecContext) :
  (ExecSetLookup func_name data options ctx
   = Return (Error (Status.Invalid
                      "Set lookup value set must be Array or ChunkedArray"))
   <-> Datum_is_arraylike (value_set options) = false)
  /\ (ExecSetLookup func_name data options ctx
      = Return (Error (Status.Invalid
                         (mismatch_message (comparison_type data)
                            (Datum_type (value_set options)))))
      <-> Datum_is_arraylike (value_set options) = true
          /\ (Datum_length (value_set options) > 0)%Z
          /\ DataType_Equals (comparison_type data)
                             (Datum_type (value_set options)) = false).
Proof.
  rewrite ExecSetLookup_unfold.
  destruct (Datum_is_arraylike (value_set options)); simpl.
  - destruct (Z.gtb_spec (Datum_length (value_set options)) 0) as [Hl|Hl];
      destruct (DataType_Equals (comparison_type data)
                                (Datum_type (value_set options)));
      simpl; (split; split); try discriminate; try reflexivity;
      try (intros (_ & H1 & H2); first [discriminate H2 | lia]);
      try (intros _; repeat split; lia).
  - split; split; try reflexivity; try discriminate.
    intros (H & _); discriminate H.
Qed.

(** X3.  The validator reads the probe's type and the value set, and
    nothing else: two calls whose probes have the same type and whose
    options have the same value set are rejected alike, with the same
    status, whatever the probes' kinds and contents, the names asked for,
    the [skip_nulls] flags and the contexts. *)
Theorem set_lookup_validation_reads_type_only
    (func_name func_name' : string) (data data' : Datum)
    (options options' : SetLookupOptions) (ctx ctx' : ExecContext) :
  Datum_type data = Datum_type data' ->
  value_set options = value_set options' ->
  forall status : Status.t,
    ExecSetLookup func_name data options ctx = Return (Error status)
    <-> ExecSetLookup func_name' data' options' ctx' = Return (Error status).
Proof.
  intros Ht Hv status. rewrite !ExecSetLookup_unfold.
  rewrite <- Hv, <- (comparison_type_same_type _ _ Ht).
  destruct (negb (Datum_is_arraylike (value_set options)));
    [reflexivity|].
  destruct ((Datum_length (value_set options) >? 0)%Z
            && negb (DataType_Equals (comparison_type data)
                                     (Datum_type (value_set options))));
    [reflexivity|].
  split; discriminate.
Qed.

(** X4.  Only the probe is unwrapped.  A probe of a plain type against an
    array-like, non-empty value set of a dictionary type is rejected when
    the two types differ, even if the dictionary's value type equals the
    probe's type: the value set's type is compared as it is. *)
Theorem set_lookup_value_set_not_unwrapped
    (values : Datum) (options : SetLookupOptions) (ctx : ExecContext) :
  Datum_is_arraylike (value_set options) = true ->
  (Datum_length (value_set options) > 0)%Z ->
  DataType_id (Datum_type values) <> TypeId.DICTIONARY ->
  DataType_id (Datum_type (value_set options)) = TypeId.DICTIONARY ->
  DataType_Equals (Datum_type values)
    (DictionaryType_value_type (Datum_type (value_set options))) = true ->
  DataType_Equals (Datum_type values) (Datum_type (value_set options))
  = false ->
  let failure :=
    Error (Status.Invalid
             (mismatch_message (Datum_type values)
                               (Datum_type (value_set options)))) in
  IsIn values options ctx = Return failure
  /\ IndexIn values options ctx = Return failure.
Proof.
  intros Ha Hl Hplain _ _ He failure. unfold failure, IsIn, IndexIn.
  rewrite <- (comparison_type_plain _ Hplain) in *.
  now rewrite !(ExecSetLookup_mismatch _ _ _ _ Ha Hl He).
Qed.

(** ** Which calls can fail locally, and what the registry sees *)

(** X5.  Only the set lookups validate.  Every entry point other than
    [IsIn] and [IndexIn] goes to the registry whatever its arguments (an
    empty list for the element-wise functions included): it is the one
    request of the catalogue and its result is the registry's answer.
    Conversely a call answered without the registry, with whatever
    result, is a call of [IsIn] or [IndexIn], and the answer is an
    [Invalid] status. *)
Theorem only_set_lookup_fails_locally (c : FacadeCall) (ctx : ExecContext) :
  (is_set_lookup c = false ->
   invoke c ctx
   = CallFunction (resolved_name c) (given_arguments c) (bound_options c) ctx
   /\ forall reg : Registry,
        run reg (invoke c ctx)
        = (reg (resolved_request c ctx), [resolved_request c ctx]))
  /\ (forall answer : Result Datum,
        invoke c ctx = Return answer ->
        is_set_lookup c = true
        /\ exists msg : string, answer = Error (Status.Invalid msg)).
Proof.
  destruct (invoke_cases c ctx) as [(Hset & msg & Hlocal)|Hcall]; split.
  - intros Hother. rewrite Hset in Hother. discriminate Hother.
  - intros answer Hanswer. rewrite Hlocal in Hanswer.
    injection Hanswer as <-. split; [exact Hset | now exists msg].
  - intros _. split; [exact Hcall|]. intros reg.
    rewrite Hcall, run_CallFunction. reflexivity.
  - intros answer Hanswer. rewrite Hcall in Hanswer. discriminate Hanswer.
Qed.

(** X6.  What an entry point asks of the registry does not depend on what
    the registry answers: under any two registries the requests are the
    same, there is at most one, and there is none exactly when the call
    is rejected locally. *)
Theorem requests_independent_of_answers
    (c : FacadeCall) (ctx : ExecContext) (reg reg' : Registry) :
  snd (run reg (invoke c ctx)) = snd (run reg' (invoke c ctx))
  /\ (List.length (snd (run reg (invoke c ctx))) <= 1)%nat
  /\ (snd (run reg (invoke c ctx)) = []
      <-> rejected_locally (invoke c ctx) = true).
Proof.
  destruct (invoke_cases c ctx) as [(_ & msg & Hlocal)|Hcall].
  - rewrite Hlocal. simpl. repeat split; auto.
  - rewrite Hcall, !run_CallFunction. simpl.
    repeat split; auto; discriminate.
Qed.

(** X7.  The facade never succeeds on its own: a successful result of any
    entry point is the registry's successful answer to the request of the
    catalogue, and that request was made. *)
Theorem success_comes_from_registry
    (c : FacadeCall) (ctx : ExecContext) (reg : Registry) (value : Datum) :
  fst (run reg (invoke c ctx)) = Ok value ->
  reg (resolved_request c ctx) = Ok value
  /\ snd (run reg (invoke c ctx)) = [resolved_request c ctx].
Proof.
  destruct (invoke_cases c ctx) as [(_ & msg & Hlocal)|Hcall].
  - rewrite Hlocal. simpl. discriminate.
  - rewrite Hcall, run_CallFunction. simpl. intros H. split; [exact H|].
    reflexivity.
Qed.

(** X8.  Where a failure comes from: a failed call either was rejected by
    the set-lookup validator, with code [Invalid] and no request made, or
    carries the very status the registry answered.  So a failure whose
    code is not [Invalid] is the registry's. *)
Theorem failure_attribution
    (c : FacadeCall) (ctx : ExecContext) (reg : Registry)
    (status : Status.t) :
  fst (run reg (invoke c ctx)) = Error status ->
  (is_set_lookup c = true
   /\ Status.code status = StatusCode.Invalid
   /\ invoke c ctx = Return (Error status)
   /\ snd (run reg (invoke c ctx)) = [])
  \/ (rejected_locally (invoke c ctx) = false
      /\ reg (resolved_request c ctx) = Error status).
Proof.
  destruct (invoke_cases c ctx) as [(Hset & msg & Hlocal)|Hcall].
  - rewrite Hlocal. simpl. intros H. injection H as <-.
    left. repeat split. exact Hset.
  - rewrite Hcall, run_CallFunction. simpl. intros H. right.
    split; [reflexivity | exact H].
Qed.

(** ** The registry names of the catalogue *)

Ltac destruct_selectors :=
  repeat match goal with
         | o : ArithmeticOptions |- _ => destruct o as [[|]]
         | o : CompareOptions |- _ => destruct o as [[]]
         end.

Lemma resolved_name_injective (c c' : FacadeCall) :
  resolved_name c = resolved_name c' ->
  cpp_name c = cpp_name c' /\ selector c = selector c'.
Proof.
  destruct c; destruct_selectors; simpl; intros H;
    destruct c'; destruct_selectors; simpl in H |- *;
    first [discriminate H | split; reflexivity].
Qed.

(** X9.  No two functions share a registry name.  If two calls resolve to
    the same registry name they are calls of the same C++ function, and
    their name-selecting options agree: the same [check_overflow] for an
    arithmetic function, the same operator for [Compare]. *)
Theorem registry_names_distinct
    (c c' : FacadeCall) (ctx ctx' : ExecContext) (name : string) :
  registry_name (invoke c ctx) = Some name ->
  registry_name (invoke c' ctx') = Some name ->
  cpp_name c = cpp_name c' /\ selector c = selector c'.
Proof.
  intros H H'. apply resolved_name_injective.
  destruct (invoke_cases c ctx) as [(_ & msg & Hl)|Hc];
    [rewrite Hl in H; discriminate H|].
  destruct (invoke_cases c' ctx') as [(_ & msg' & Hl')|Hc'];
    [rewrite Hl' in H'; discriminate H'|].
  rewrite Hc in H. rewrite Hc' in H'. simpl in H, H'. congruence.
Qed.

End Further.

(** * The example scenarios, run on the instance *)

Section Scenarios.

Import Fixture.

(** Scenario 1: an int32 probe against a non-empty int64 value set. *)
Example scenario_int32_against_int64 :
  @IsIn env int32_array (lookup_in int64_chunked_5) tt
  = Return (Error (Status.Invalid
      "Array type didn't match type of values set: int32 vs int64")).
Proof. reflexivity. Qed.

(** Scenario 2: a dictionary of strings against a string value set. *)
Example scenario_dictionary_against_strings :
  @IndexIn env dict_array (lookup_in string_array_3) tt
  = @CallFunction Fixture.env "index_in" [dict_array]
      (Some (OfSetLookup (lookup_in string_array_3))) tt.
Proof. reflexivity. Qed.

(** The index type of the dictionary plays no part: a value set of the
    index type is a mismatch. *)
Example scenario_dictionary_against_its_index_type :
  @IsIn env dict_array (lookup_in int8_array_3) tt
  = Return (Error (Status.Invalid
      "Array type didn't match type of values set: string vs int8")).
Proof. reflexivity. Qed.

(** Scenarios 3 and 4: the checked and the plain addition. *)
Example scenario_add_checked :
  registry_name (@Add env int32_array int32_array
                   {| check_overflow := true |} tt) = Some "add_checked"
  /\ registry_name (@Add env int32_array int32_array
                      {| check_overflow := false |} tt) = Some "add".
Proof. split; reflexivity. Qed.

(** Scenario 5: an empty value set of another type. *)
Example scenario_empty_value_set :
  @IsIn env int32_array (lookup_in int64_empty) tt
  = @CallFunction Fixture.env "is_in" [int32_array]
      (Some (OfSetLookup (lookup_in int64_empty))) tt.
Proof. reflexivity. Qed.

(** A failure of the registry comes back as it is. *)
Example scenario_registry_failure :
  run registry (@Add env int32_array int32_array
                  {| check_overflow := true |} tt)
  = (Error (Status.Make StatusCode.KeyError
              "No function registered with name: add_checked"),
     [@Build_RegistryCall env "add_checked" [int32_array; int32_array]
        None tt]).
Proof. reflexivity. Qed.

End Scenarios.

(** * The theorems with hypotheses, applied to the instance *)

Lemma set_lookup_type_mismatch_witness :
  exists msg : string,
    @IsIn Fixture.env Fixture.int32_array
      (Fixture.lookup_in Fixture.int64_chunked_5) tt
    = Return (Error (Status.Invalid msg))
    /\ @IndexIn Fixture.env Fixture.int32_array
         (Fixture.lookup_in Fixture.int64_chunked_5) tt
       = Return (Error (Status.Invalid msg))
    /\ contains "int32" msg = true
    /\ contains "int64" msg = true.
Proof.
  destruct (@set_lookup_type_mismatch_rejected Fixture.env
              Fixture.int32_array
              (Fixture.lookup_in Fixture.int64_chunked_5) tt)
    as (msg & His & Hidx & Hprobe & Hset & _);
    [reflexivity | reflexivity | reflexivity |].
  exists msg. repeat split; assumption.
Defined.

Lemma set_lookup_empty_value_set_witness :
  Fixture.Equals (Fixture.type Fixture.dict_array)
                 (Fixture.type Fixture.int64_empty) = false
  /\ @IsIn Fixture.env Fixture.dict_array
       (Fixture.lookup_in Fixture.int64_empty) tt
     = @CallFunction Fixture.env "is_in" [Fixture.dict_array]
         (Some (OfSetLookup (Fixture.lookup_in Fixture.int64_empty))) tt
  /\ @IndexIn Fixture.env Fixture.dict_array
       (Fixture.lookup_in Fixture.int64_empty) tt
     = @CallFunction Fixture.env "index_in" [Fixture.dict_array]
         (Some (OfSetLookup (Fixture.lookup_in Fixture.int64_empty))) tt.
Proof.
  split; [reflexivity|].
  destruct (@set_lookup_empty_value_set_delegates Fixture.env
              Fixture.dict_array (Fixture.lookup_in Fixture.int64_empty) tt)
    as (His & Hidx & _); [reflexivity | reflexivity |].
  split; assumption.
Defined.

Lemma set_lookup_compares_decoded_value_type_witness :
  @IsIn Fixture.env Fixture.dict_array
    (Fixture.lookup_in Fixture.string_array_3) tt
  = @CallFunction Fixture.env "is_in" [Fixture.dict_array]
      (Some (OfSetLookup (Fixture.lookup_in Fixture.string_array_3))) tt
  /\ @IsIn Fixture.env Fixture.int32_array
       (Fixture.lookup_in Fixture.int64_chunked_5) tt
     = Return (Error (Status.Invalid
         "Array type didn't match type of values set: int32 vs int64")).
Proof.
  split.
  - destruct (@set_lookup_compares_decoded_value_type Fixture.env
                Fixture.dict_array
                (Fixture.lookup_in Fixture.string_array_3) tt)
      as [Hdict _]; [reflexivity | reflexivity |].
    destruct (Hdict eq_refl) as [His _]. exact His.
  - destruct (@set_lookup_compares_decoded_value_type Fixture.env
                Fixture.int32_array
                (Fixture.lookup_in Fixture.int64_chunked_5) tt)
      as [_ Hplain]; [reflexivity | reflexivity |].
    destruct Hplain as [His _]; [discriminate | exact His].
Defined.

Lemma set_lookup_value_set_not_arraylike_witness :
  Fixture.Equals (Fixture.type Fixture.int64_scalar)
                 (Fixture.type Fixture.int64_scalar) = true
  /\ @IsIn Fixture.env Fixture.int64_scalar
       (Fixture.lookup_in Fixture.int64_scalar) tt
     = Return (Error (Status.Invalid
         "Set lookup value set must be Array or ChunkedArray"))
  /\ @IndexIn Fixture.env Fixture.int64_scalar
       (Fixture.lookup_in Fixture.int64_scalar) tt
     = Return (Error (Status.Invalid
         "Set lookup value set must be Array or ChunkedArray")).
Proof.
  split; [reflexivity|].
  destruct (@set_lookup_value_set_not_arraylike Fixture.env
              Fixture.int64_scalar
              (Fixture.lookup_in Fixture.int64_scalar) tt)
    as (His & Hidx & _); [reflexivity |].
  split; assumption.
Defined.

Lemma set_lookup_unwraps_one_level_witness :
  Fixture.Equals
    (Fixture.value_type
       (Fixture.value_type (Fixture.type Fixture.nested_dict_array)))
    (Fixture.type Fixture.string_array_3) = true
  /\ @IsIn Fixture.env Fixture.nested_dict_array
       (Fixture.lookup_in Fixture.string_array_3) tt
     = Return (Error (Status.Invalid
         ("Array type didn't match type of values set: "
          ++ "dictionary<values=string, indices=int8, ordered=0>"
          ++ " vs string"))).
Proof.
  split; [reflexivity|].
  destruct (@set_lookup_unwraps_one_level Fixture.env
              Fixture.nested_dict_array
              (Fixture.lookup_in Fixture.string_array_3) tt)
    as (_ & _ & Hreject);
    [reflexivity | reflexivity | reflexivity | reflexivity |].
  destruct (Hreject eq_refl true eq_refl) as [His _]. exact His.
Defined.

Lemma facade_returns_registry_result_witness :
  run Fixture.registry
    (@invoke Fixture.env
       (@Call_IsIn Fixture.env Fixture.dict_array
          (Fixture.lookup_in Fixture.string_array_3)) tt)
  = (Ok Fixture.dict_array,
     [@Build_RegistryCall Fixture.env "is_in" [Fixture.dict_array]
        (Some (OfSetLookup (Fixture.lookup_in Fixture.string_array_3))) tt])
  /\ fst (run Fixture.registry
            (@invoke Fixture.env
               (@Call_Add Fixture.env Fixture.int32_array Fixture.int32_array
                  {| check_overflow := false |}) tt))
     = Error (Status.Make StatusCode.ExecutionError "add: kernel failed").
Proof.
  split.
  - destruct (@facade_returns_registry_result Fixture.env
                (@Call_IsIn Fixture.env Fixture.dict_array
                   (Fixture.lookup_in Fixture.string_array_3)) tt)
      as (_ & _ & Hrun); [reflexivity |].
    destruct (Hrun Fixture.registry) as [Heq _]. exact Heq.
  - destruct (@facade_returns_registry_result Fixture.env
                (@Call_Add Fixture.env Fixture.int32_array Fixture.int32_array
                   {| check_overflow := false |}) tt)
      as (_ & _ & Hrun); [reflexivity |].
    destruct (Hrun Fixture.registry) as (_ & Herr & _).
    apply Herr. reflexivity.
Defined.

(** * The further theorems with hypotheses, applied to the instance *)

Lemma set_lookup_validation_reads_type_only_witness :
  Fixture.kind Fixture.int32_array <> Fixture.kind Fixture.int32_scalar
  /\ @ExecSetLookup Fixture.env "index_in" Fixture.int32_scalar
       (@SetLookupOptions_of Fixture.env Fixture.int64_chunked_5) tt
     = Return (Error (Status.Invalid
         "Array type didn't match type of values set: int32 vs int64")).
Proof.
  split; [discriminate|].
  apply (@set_lookup_validation_reads_type_only Fixture.env
           "is_in" "index_in" Fixture.int32_array Fixture.int32_scalar
           (Fixture.lookup_in Fixture.int64_chunked_5)
           (@SetLookupOptions_of Fixture.env Fixture.int64_chunked_5) tt tt);
    reflexivity.
Defined.

Lemma set_lookup_value_set_not_unwrapped_witness :
  @IsIn Fixture.env Fixture.string_array_3
    (Fixture.lookup_in Fixture.dict_array) tt
  = Return (Error (Status.Invalid
      ("Array type didn't match type of values set: string vs "
       ++ "dictionary<values=string, indices=int8, ordered=0>"))).
Proof.
  destruct (@set_lookup_value_set_not_unwrapped Fixture.env
              Fixture.string_array_3
              (Fixture.lookup_in Fixture.dict_array) tt)
    as [His _];
    [reflexivity | reflexivity | discriminate | reflexivity | reflexivity
    | reflexivity |].
  exact His.
Defined.

Lemma only_set_lookup_fails_locally_witness :
  run Fixture.registry
    (@invoke Fixture.env
       (@Call_ElementWiseMax Fixture.env [] {| skip_nulls := true |}) tt)
  = (Error (Status.Make StatusCode.KeyError
              "No function registered with name: element_wise_max"),
     [@Build_RegistryCall Fixture.env "element_wise_max" []
        (Some (OfElementWiseAggregate {| skip_nulls := true |})) tt])
  /\ exists msg : string,
       @Error Fixture.ArrowDatum
         (Status.Invalid "Set lookup value set must be Array or ChunkedArray")
       = Error (Status.Invalid msg).
Proof.
  split.
  - destruct (@only_set_lookup_fails_locally Fixture.env
                (@Call_ElementWiseMax Fixture.env []
                   {| skip_nulls := true |}) tt)
      as [Hother _].
    destruct Hother as [_ Hrun]; [reflexivity | exact (Hrun Fixture.registry)].
  - destruct (@only_set_lookup_fails_locally Fixture.env
                (@Call_IndexIn Fixture.env Fixture.int64_scalar
                   (Fixture.lookup_in Fixture.int64_scalar)) tt)
      as [_ Hlocal].
    destruct (Hlocal _ eq_refl) as [_ Hmsg]. exact Hmsg.
Defined.

Lemma success_comes_from_registry_witness :
  Fixture.registry
    (@resolved_request Fixture.env
       (@Call_IsIn Fixture.env Fixture.dict_array
          (Fixture.lookup_in Fixture.string_array_3)) tt)
  = Ok Fixture.dict_array.
Proof.
  destruct (@success_comes_from_registry Fixture.env
              (@Call_IsIn Fixture.env Fixture.dict_array
                 (Fixture.lookup_in Fixture.string_array_3)) tt
              Fixture.registry Fixture.dict_array)
    as [Hreg _]; [reflexivity | exact Hreg].
Defined.

Lemma failure_attribution_witness :
  Fixture.registry
    (@resolved_request Fixture.env
       (@Call_Add Fixture.env Fixture.int32_array Fixture.int32_array
          {| check_overflow := false |}) tt)
  = Error (Status.Make StatusCode.ExecutionError "add: kernel failed").
Proof.
  destruct (@failure_attribution Fixture.env
              (@Call_Add Fixture.env Fixture.int32_array Fixture.int32_array
                 {| check_overflow := false |}) tt
              Fixture.registry
              (Status.Make StatusCode.ExecutionError "add: kernel failed"))
    as [(Hset & _)|(_ & Hreg)];
    [reflexivity | discriminate Hset | exact Hreg].
Defined.

Lemma registry_names_distinct_witness :
  @cpp_name Fixture.env
    (@Call_Subtract Fixture.env Fixture.int32_array Fixture.int64_scalar
       {| check_overflow := true |})
  = @cpp_name Fixture.env
      (@Call_Subtract Fixture.env Fixture.int8_array_3 Fixture.int8_array_3
         {| check_overflow := true |})
  /\ @selector Fixture.env
       (@Call_Subtract Fixture.env Fixture.int32_array Fixture.int64_scalar
          {| check_overflow := true |})
     = Overflow true.
Proof.
  apply (@registry_names_distinct Fixture.env
           (@Call_Subtract Fixture.env Fixture.int32_array
              Fixture.int64_scalar {| check_overflow := true |})
           (@Call_Subtract Fixture.env Fixture.int8_array_3
              Fixture.int8_array_3 {| check_overflow := true |})
           tt tt "subtract_checked");
    reflexivity.
Defined.
